(** * A shallow embedding of the fileuploader Express server (src/index.ts)

    The server has three routes and two helper functions.  We embed:
    - the JavaScript values the handlers pass around ([jsval]);
    - the library functions the code relies on that decide the claims
      ([path.extname], [String.prototype.toLowerCase], [RegExp.prototype.test]
      for an alternation of literals, [String.prototype.substring],
      template literals, [Number] and [||]);
    - [checkFileType] and [getRandomFileName];
    - the upload stage ([multer(...).single('image')] with the multer-s3
      storage) as far as the filter and the key function go;
    - the [/upload] and [/delete] route handlers, with the storage service's
      answers as parameters and the storage calls returned as a trace. *)

From Stdlib Require Import Bool Arith Lia ZArith List String Ascii.
Import ListNotations.
Open Scope string_scope.
#[local] Set Warnings "-register-all".

(** ** JavaScript values *)

(** A JavaScript number: NaN, an infinity, or a finite decimal [m * 10^e]
    (the value of a numeric literal before rounding to a double). *)
Inductive jsnum :=
| NaN
| Infinity (negative : bool)
| Dec (m : Z) (e : Z).

Inductive jsval :=
| JUndefined
| JNull
| JBool (b : bool)
| JNum (n : jsnum)
| JStr (s : string)
| JArr (l : list jsval)
| JObj (fields : list (string * jsval)).

(** ToBoolean. *)
Definition num_truthy (n : jsnum) : bool :=
  match n with
  | NaN => false
  | Infinity _ => true
  | Dec m _ => negb (Z.eqb m 0)
  end.

Definition js_truthy (v : jsval) : bool :=
  match v with
  | JUndefined | JNull => false
  | JBool b => b
  | JNum n => num_truthy n
  | JStr s => negb (String.eqb s "")
  | JArr _ | JObj _ => true
  end.

(** [process.env.X] is a string or [undefined]; a template literal
    [`${process.env.X}`] and [String(process.env.X)] both render
    [undefined] as the text "undefined". *)
Definition env_str (o : option string) : string :=
  match o with
  | Some s => s
  | None => "undefined"
  end.

(** The environment variables the code reads. *)
Record env := mkEnv {
  APP_PORT : option string;
  AWS_BUCKET_NAME : option string;
  AWS_BUCKET_PATH : option string
}.

(** ** String library functions *)

Fixpoint char_at (s : string) (i : nat) : ascii :=
  match s, i with
  | EmptyString, _ => "000"%char
  | String c _, O => c
  | String _ s', S i' => char_at s' i'
  end.

(** [String.prototype.substring(a, b)]: both indices are clamped to
    [0, length], and swapped when [a > b]. *)
Definition js_substring (s : string) (a b : nat) : string :=
  let len := String.length s in
  let a' := Nat.min a len in
  let b' := Nat.min b len in
  let lo := Nat.min a' b' in
  let hi := Nat.max a' b' in
  String.substring lo (hi - lo) s.

(** [String.prototype.toLowerCase] on ASCII text. *)
Definition ascii_lower (c : ascii) : ascii :=
  let n := nat_of_ascii c in
  if (65 <=? n)%nat && (n <=? 90)%nat then ascii_of_nat (n + 32)%nat else c.

Fixpoint toLowerCase (s : string) : string :=
  match s with
  | EmptyString => EmptyString
  | String c s' => String (ascii_lower c) (toLowerCase s')
  end.

(** [RegExp.prototype.test] for a pattern with no anchors: a match may start
    at any position, so the test succeeds iff the text has the literal as a
    substring. *)
Fixpoint contains (pat s : string) : bool :=
  match s with
  | EmptyString => String.prefix pat s
  | String _ s' => String.prefix pat s || contains pat s'
  end.

(** ** [path.extname] (Node's POSIX implementation)

    The loop runs from the last character to the first and keeps the
    variables [startDot], [startPart], [end], [matchedSlash] and
    [preDotState] of the library code ([-1] as in the source). *)
Record ext_state := mkExtState {
  startDot : Z;
  startPart : Z;
  endPos : Z;
  matchedSlash : bool;
  preDotState : Z
}.

Definition ext_init : ext_state := mkExtState (-1) 0 (-1) true 0.

Fixpoint extname_loop (p : string) (k : nat) (st : ext_state) : ext_state :=
  match k with
  | O => st
  | S i =>
      let c := char_at p i in
      if Ascii.eqb c "/"%char then
        if negb (matchedSlash st)
        then mkExtState (startDot st) (Z.of_nat i + 1) (endPos st)
               (matchedSlash st) (preDotState st)            (* break *)
        else extname_loop p i st                             (* continue *)
      else
        let st1 :=
          if Z.eqb (endPos st) (-1)
          then mkExtState (startDot st) (startPart st) (Z.of_nat i + 1)
                 false (preDotState st)
          else st in
        let st2 :=
          if Ascii.eqb c "."%char then
            if Z.eqb (startDot st1) (-1)
            then mkExtState (Z.of_nat i) (startPart st1) (endPos st1)
                   (matchedSlash st1) (preDotState st1)
            else if negb (Z.eqb (preDotState st1) 1)
            then mkExtState (startDot st1) (startPart st1) (endPos st1)
                   (matchedSlash st1) 1
            else st1
          else if negb (Z.eqb (startDot st1) (-1))
          then mkExtState (startDot st1) (startPart st1) (endPos st1)
                 (matchedSlash st1) (-1)
          else st1 in
        extname_loop p i st2
  end.

Definition extname (p : string) : string :=
  let st := extname_loop p (String.length p) ext_init in
  if Z.eqb (startDot st) (-1) || Z.eqb (endPos st) (-1)
     || Z.eqb (preDotState st) 0
     || (Z.eqb (preDotState st) 1 && Z.eqb (startDot st) (endPos st - 1)
         && Z.eqb (startDot st) (startPart st + 1))
  then ""
  else js_substring p (Z.to_nat (startDot st)) (Z.to_nat (endPos st)).

(** ** [checkFileType]

    A call [cb(err, include)] of a multer callback; an argument left out is
    [undefined]. *)
Record cb_call := mkCall { cb_err : jsval; cb_include : jsval }.

(** The file object multer hands to the filter: [originalname] is the
    client's file name and [mimetype] the declared content type; busboy
    always supplies both as strings. *)
Record multer_file := mkFile { originalname : string; mimetype : string }.

(** [const filetypes = /jpeg|jpg|png|gif/;] *)
Definition filetypes_test (s : string) : bool :=
  contains "jpeg" s || contains "jpg" s || contains "png" s || contains "gif" s.

(** The callbacks [checkFileType(file, cb)] makes, in order. *)
Definition checkFileType (file : multer_file) : list cb_call :=
  let extname_ok := filetypes_test (toLowerCase (extname (originalname file))) in
  let mimetype_ok := filetypes_test (mimetype file) in
  if mimetype_ok && extname_ok
  then [mkCall JNull (JBool true)]
  else [mkCall (JStr "Error: Images Only!") JUndefined].

(** ** [getRandomFileName] and the multer-s3 key function

    [Math.random().toString(36)] is the base-36 rendering of a draw from
    [0, 1): "0" for 0, otherwise "0." followed by base-36 digits (0.5 gives
    "0.i").  The two renderings the function computes are its inputs
    [draw1] and [draw2], in call order. *)
Definition random_fragment (draw : string) : string := js_substring draw 2 15.

Definition getRandomFileName (file : multer_file) (draw1 draw2 : string) : string :=
  random_fragment draw1 ++ random_fragment draw2 ++ extname (originalname file).

(** [key: function (req, file, cb) { cb(null, `saskengallery/${getRandomFileName(file)}`); }] *)
Definition s3_key (file : multer_file) (draw1 draw2 : string) : string :=
  "saskengallery/" ++ getRandomFileName file draw1 draw2.

(** ** The upload stage [multer({storage: multerS3(...), fileFilter}).single('image')]

    A storage write is a [PutObject] of the file at a key with an ACL; the
    storage service's answer to each write is the parameter [put]. *)
Record put_call := mkPut { put_bucket : string; put_key : string; put_acl : string }.

Inductive put_result := PutOk | PutErr (error : jsval).

(** [req.file] after a stored upload: multer-s3 records the key it used. *)
Record uploaded_file := mkUploaded { up_file : multer_file; up_key : string }.

(** An aborted upload: multer sets [err.storageErrors] to the list of
    errors met while removing the files already stored (none here) before
    passing [err] on; on a primitive such as a string the assignment has no
    effect. *)
Fixpoint set_field (k : string) (v : jsval) (fields : list (string * jsval))
    : list (string * jsval) :=
  match fields with
  | [] => [(k, v)]
  | (k', v') :: fs => if String.eqb k k' then (k', v) :: fs else (k', v') :: set_field k v fs
  end.

Definition with_storage_errors (err : jsval) : jsval :=
  match err with
  | JObj fs => JObj (set_field "storageErrors" (JArr []) fs)
  | _ => err
  end.

(** The upload stage as multer runs it for the field ['image']: with no file
    it calls [next()] with [req.file] undefined; otherwise it runs the
    filter, and on [cb(err)] with a truthy [err] aborts with that error
    before any write, on a falsy [include] skips the file, and otherwise
    asks the storage for the key and writes the file there, passing a write
    error to [next].  The result is the list of writes and, when [next] is
    called, its argument together with [req.file]; [None] means the filter
    never answered and [next] is never called.

    The model covers a request with at most one file, sent in the field
    'image', within the size limit: the [limits.fileSize] stage (a file over
    11,000,000 bytes is cut off, its stored object removed and the upload
    aborted with LIMIT_FILE_SIZE) and the field check of [.single('image')]
    (LIMIT_UNEXPECTED_FILE) are not modelled. *)
Definition upload (e : env) (file : option multer_file) (draw1 draw2 : string)
    (put : put_call -> put_result)
    : list put_call * option (jsval * option uploaded_file) :=
  match file with
  | None => ([], Some (JUndefined, None))
  | Some f =>
      match checkFileType f with
      | [] => ([], None)
      | c :: _ =>
          if js_truthy (cb_err c) then ([], Some (with_storage_errors (cb_err c), None))
          else if negb (js_truthy (cb_include c)) then ([], Some (JUndefined, None))
          else
            let key := s3_key f draw1 draw2 in
            let w := mkPut (env_str (AWS_BUCKET_NAME e)) key "public-read" in
            match put w with
            | PutOk => ([w], Some (JUndefined, Some (mkUploaded f key)))
            | PutErr err => ([w], Some (with_storage_errors err, None))
            end
      end
  end.

(** ** Responses *)
Record response := mkResponse { status : nat; body : jsval }.

(** [res.json(v)] keeps the default status 200. *)
Definition res_json (v : jsval) : response := mkResponse 200 v.

(** [res.status(n).json(v)] *)
Definition res_status_json (n : nat) (v : jsval) : response := mkResponse n v.

(** ** [app.post('/upload', ...)]: the callback given to [upload] *)
Definition upload_callback (e : env) (error : jsval) (reqfile : option uploaded_file)
    : response :=
  if js_truthy error then res_json (JObj [("error", error)])
  else
    match reqfile with
    | None => res_json (JObj [("error", JStr "No File Selected")])
    | Some f =>
        res_json (JObj [("response", JStr "Image Uploaded Successfully!");
                        ("fileUrl", JStr (env_str (AWS_BUCKET_PATH e) ++ "/" ++ up_key f))])
    end.

(** The whole route: the storage writes and the response, if any. *)
Definition post_upload (e : env) (file : option multer_file) (draw1 draw2 : string)
    (put : put_call -> put_result) : list put_call * option response :=
  let '(writes, next) := upload e file draw1 draw2 put in
  (writes, match next with
           | Some (error, reqfile) => Some (upload_callback e error reqfile)
           | None => None
           end).

(** ** [app.delete('/delete', ...)]

    [req.body] after [express.json()] and [express.urlencoded()] is an object
    or, for a JSON array body, an array. *)
Inductive req_body :=
| BodyObject (fields : list (string * jsval))
| BodyArray (elems : list jsval).

Fixpoint get_field (k : string) (fields : list (string * jsval)) : jsval :=
  match fields with
  | [] => JUndefined
  | (k', v) :: fs => if String.eqb k k' then v else get_field k fs
  end.

(** [const { key } = req.body;] *)
Definition body_key (b : req_body) : jsval :=
  match b with
  | BodyObject fs => get_field "key" fs
  | BodyArray _ => JUndefined
  end.

Record delete_params := mkDeleteParams { Bucket : string; Key : jsval }.

(** The settled promise of [s3.send(new DeleteObjectCommand(params))]. *)
Inductive send_result := SendOk (output : jsval) | SendErr (error : jsval).

(** The delete-object calls made and the response; [send] is the storage
    service's answer. *)
Definition delete_handler (e : env) (b : req_body) (send : delete_params -> send_result)
    : list delete_params * response :=
  let params := mkDeleteParams (env_str (AWS_BUCKET_NAME e)) (body_key b) in
  ([params],
   match send params with
   | SendOk _ => res_json (JObj [("message", JStr "File deleted successfully")])
   | SendErr _ => res_status_json 500 (JObj [("error", JStr "Failed to delete file from S3")])
   end).

(** ** [Number(s)] on a string (StringToNumber), on ASCII text

    Surrounding white space is ignored, the empty string is 0, "0x"/"0o"/"0b"
    literals are unsigned integers, and a signed decimal literal is
    "Infinity" or digits with an optional fraction and exponent; anything
    else is NaN.  The literal's exact value is then rounded to the nearest
    IEEE-754 double (ties to even): too small a value becomes 0, too large
    a one Infinity.  A finite result [Dec m e] is the exact value of that
    double, with trailing zeros of a fraction removed; -0 is written as 0. *)
Local Open Scope nat_scope.

Definition is_ws (c : ascii) : bool :=
  let n := nat_of_ascii c in ((9 <=? n) && (n <=? 13)) || (n =? 32).

Fixpoint drop_ws (l : list ascii) : list ascii :=
  match l with
  | c :: l' => if is_ws c then drop_ws l' else l
  | [] => []
  end.

Definition trim (l : list ascii) : list ascii := rev (drop_ws (rev (drop_ws l))).

Definition digit_val (base : nat) (c : ascii) : option nat :=
  let n := nat_of_ascii c in
  let d := if (48 <=? n) && (n <=? 57) then Some (n - 48)
           else if (97 <=? n) && (n <=? 122) then Some (n - 87)
           else if (65 <=? n) && (n <=? 90) then Some (n - 55)
           else None in
  match d with
  | Some v => if v <? base then Some v else None
  | None => None
  end.

(** The longest run of digits: its value appended to [acc], its length,
    and the rest. *)
Fixpoint digits_run (base : nat) (l : list ascii) (acc : Z) (count : nat)
    : Z * nat * list ascii :=
  match l with
  | c :: l' =>
      match digit_val base c with
      | Some v => digits_run base l' (acc * Z.of_nat base + Z.of_nat v)%Z (S count)
      | None => (acc, count, l)
      end
  | [] => (acc, count, [])
  end.

(** [m * 2^k] against [den]: is [num / den >= 2^k]? *)
Definition ge_pow2 (num den k : Z) : bool :=
  if (0 <=? k)%Z then (den * 2 ^ k <=? num)%Z else (den <=? num * 2 ^ (- k))%Z.

(** [n / d] rounded to the nearest integer, ties to even ([n >= 0], [d > 0]). *)
Definition round_half_even (n d : Z) : Z :=
  let q := (n / d)%Z in
  let r := (n mod d)%Z in
  if (2 * r <? d)%Z then q
  else if (d <? 2 * r)%Z then (q + 1)%Z
  else if Z.even q then q else (q + 1)%Z.

(** Drops trailing zeros of [m] while the exponent is negative. *)
Fixpoint strip_frac_zeros (fuel : nat) (m e : Z) : Z * Z :=
  match fuel with
  | O => (m, e)
  | S f =>
      if (e <? 0)%Z && negb (m =? 0)%Z && (m mod 10 =? 0)%Z
      then strip_frac_zeros f (m / 10) (e + 1)
      else (m, e)
  end.

(** The double nearest to [m * 10^e] ([m >= 0]), negated when [neg]: a
    normal double is [M * 2^E] with [2^52 <= M < 2^53], a subnormal one has
    [E = -1074]; the largest finite double is [(2^53 - 1) * 2^971]. *)
Definition round_to_double (neg : bool) (m e : Z) : jsnum :=
  if (m =? 0)%Z then Dec 0 0
  else if (309 <=? e)%Z then Infinity neg                  (* >= 10^309 *)
  else if (e + Z.log2 m + 1 <=? -324)%Z then Dec 0 0       (* < 10^-324 *)
  else
    let num := (m * 10 ^ Z.max e 0)%Z in
    let den := (10 ^ Z.max (- e) 0)%Z in
    let l0 := (Z.log2 num - Z.log2 den)%Z in
    let l := if ge_pow2 num den l0 then l0 else (l0 - 1)%Z in   (* floor (log2 (num/den)) *)
    let E := Z.max (l - 52) (-1074) in
    let M := if (0 <=? E)%Z then round_half_even num (den * 2 ^ E)
             else round_half_even (num * 2 ^ (- E)) den in
    if (M =? 0)%Z then Dec 0 0
    else if (972 <=? E)%Z || ((E =? 971)%Z && (M =? 2 ^ 53)%Z) then Infinity neg
    else
      let sm := if neg then (- M)%Z else M in
      if (0 <=? E)%Z then Dec (sm * 2 ^ E) 0
      else let '(m', e') := strip_frac_zeros (Z.to_nat (- E)) (sm * 5 ^ (- E)) E in
           Dec m' e'.

Definition parse_radix (base : nat) (l : list ascii) : jsnum :=
  match digits_run base l 0%Z 0 with
  | (v, S _, []) => round_to_double false v 0
  | _ => NaN
  end.

Definition parse_unsigned_decimal (l : list ascii) : option (Z * Z) :=
  let '(ip, ni, r1) := digits_run 10 l 0%Z 0 in
  let '(fp, nf, r2) :=
    match r1 with
    | c :: r => if Ascii.eqb c "."%char then digits_run 10 r ip 0 else (ip, 0, r1)
    | [] => (ip, 0, r1)
    end in
  if (ni + nf =? 0) then None
  else match r2 with
       | [] => Some (fp, (- Z.of_nat nf)%Z)
       | c :: r3 =>
           if Ascii.eqb c "e"%char || Ascii.eqb c "E"%char then
             let '(sgn, r4) :=
               match r3 with
               | c' :: r => if Ascii.eqb c' "+"%char then (1%Z, r)
                            else if Ascii.eqb c' "-"%char then ((-1)%Z, r)
                            else (1%Z, r3)
               | [] => (1%Z, r3)
               end in
             match digits_run 10 r4 0%Z 0 with
             | (ev, S _, []) => Some (fp, (sgn * ev - Z.of_nat nf)%Z)
             | _ => None
             end
           else None
       end.

Definition parse_unsigned (neg : bool) (l : list ascii) : jsnum :=
  if String.eqb (string_of_list_ascii l) "Infinity" then Infinity neg
  else match parse_unsigned_decimal l with
       | Some (m, ex) => round_to_double neg m ex
       | None => NaN
       end.

Definition StringToNumber (s : string) : jsnum :=
  match trim (list_ascii_of_string s) with
  | [] => Dec 0 0
  | l =>
      match l with
      | z :: x :: r =>
          if Ascii.eqb z "0"%char && (Ascii.eqb x "x"%char || Ascii.eqb x "X"%char)
          then parse_radix 16 r
          else if Ascii.eqb z "0"%char && (Ascii.eqb x "o"%char || Ascii.eqb x "O"%char)
          then parse_radix 8 r
          else if Ascii.eqb z "0"%char && (Ascii.eqb x "b"%char || Ascii.eqb x "B"%char)
          then parse_radix 2 r
          else match l with
               | c :: r' => if Ascii.eqb c "+"%char then parse_unsigned false r'
                            else if Ascii.eqb c "-"%char then parse_unsigned true r'
                            else parse_unsigned false l
               | [] => NaN
               end
      | c :: r' => if Ascii.eqb c "+"%char then parse_unsigned false r'
                   else if Ascii.eqb c "-"%char then parse_unsigned true r'
                   else parse_unsigned false l
      | [] => Dec 0 0
      end
  end.

(** [Number(process.env.APP_PORT)]: [Number(undefined)] is NaN. *)
Definition Number_env (o : option string) : jsnum :=
  match o with
  | None => NaN
  | Some s => StringToNumber s
  end.

(** [const port = Number(process.env.APP_PORT) || 5000;] *)
Definition port (e : env) : jsnum :=
  let n := Number_env (APP_PORT e) in
  if num_truthy n then n else Dec 5000 0.

(** ** ToString, and [checkFileType] on any argument

    [file] has type [any]: the code reads [file.originalname] and
    [file.mimetype] without a check, so [checkFileType] may throw instead of
    calling [cb].  To state this we run it on an arbitrary value. *)

(** The decimal digits of [n >= 0]. *)
Fixpoint Z_to_dec_aux (fuel : nat) (n : Z) (acc : string) : string :=
  match fuel with
  | O => acc
  | S f =>
      let acc' := String (ascii_of_nat (48 + Z.to_nat (n mod 10))) acc in
      if (n / 10 =? 0)%Z then acc' else Z_to_dec_aux f (n / 10)%Z acc'
  end.

Definition Z_to_dec (n : Z) : string := Z_to_dec_aux (S (Z.to_nat (Z.log2 n))) n "".

Fixpoint zeros (n : nat) : string :=
  match n with
  | O => ""
  | S n' => String "0" (zeros n')
  end.

Definition jsnum_eqb (a b : jsnum) : bool :=
  match a, b with
  | NaN, NaN => true
  | Infinity x, Infinity y => Bool.eqb x y
  | Dec m e, Dec m' e' => (m =? m')%Z && (e =? e')%Z
  | _, _ => false
  end.

(** For [a = ma * 10^ea] with [10^(n-1) <= a < 10^n], the [k]-digit
    numbers [s * 10^(n-k)] next to [a] (below and above), as pairs [(s, n)]
    with [10^(k-1) <= s < 10^k], the one nearer to [a] first, the even one
    first on a tie. *)
Definition k_digit_candidates (ma ea n k : Z) : list (Z * Z) :=
  let t := (ea - n + k)%Z in
  if (0 <=? t)%Z then [((ma * 10 ^ t)%Z, n)]
  else
    let p := (10 ^ (- t))%Z in
    let lo := (ma / p)%Z in
    let r := (ma mod p)%Z in
    if (r =? 0)%Z then [(lo, n)]
    else
      let hi := if (lo + 1 =? 10 ^ k)%Z then ((10 ^ (k - 1))%Z, (n + 1)%Z)
                else ((lo + 1)%Z, n) in
      if (2 * r <? p)%Z || ((2 * r =? p)%Z && Z.even lo) then [(lo, n); hi]
      else [hi; (lo, n)].

(** The least [k] for which some [s] of [k] digits has [s * 10^(n-k)]
    rounding to the double [x], and the nearest such [s]. *)
Fixpoint shortest_digits (fuel : nat) (k : Z) (x : jsnum) (ma ea n : Z)
    : option (Z * Z * Z) :=
  match fuel with
  | O => None
  | S f =>
      match find (fun c => jsnum_eqb (round_to_double false (fst c) (snd c - k)) x)
                 (k_digit_candidates ma ea n k) with
      | Some (s, n') => Some (s, k, n')
      | None => shortest_digits f (k + 1)%Z x ma ea n
      end
  end.

(** Steps 6 to 10 of Number::toString: the digits of [s] ([k] of them) with
    the decimal point after [n] of them. *)
Definition render_number (s k n : Z) : string :=
  let ds := Z_to_dec s in
  if (k <=? n)%Z && (n <=? 21)%Z then ds ++ zeros (Z.to_nat (n - k))
  else if (0 <? n)%Z && (n <=? 21)%Z then
    substring 0 (Z.to_nat n) ds ++ "." ++ substring (Z.to_nat n) (Z.to_nat (k - n)) ds
  else if (-6 <? n)%Z && (n <=? 0)%Z then "0." ++ zeros (Z.to_nat (- n)) ++ ds
  else
    let ex := "e" ++ (if (0 <=? n - 1)%Z then "+" else "-") ++ Z_to_dec (Z.abs (n - 1)) in
    if (k =? 1)%Z then ds ++ ex
    else substring 0 1 ds ++ "." ++ substring 1 (Z.to_nat (k - 1)) ds ++ ex.

(** Number::toString(x) in base 10.  A [Dec m e] is first rounded to its
    double; every double has a rendering of at most 17 digits, so the last
    branch is not reached. *)
Definition number_to_string (x : jsnum) : string :=
  match x with
  | NaN => "NaN"
  | Infinity false => "Infinity"
  | Infinity true => "-Infinity"
  | Dec m e =>
      let sign := if (m <? 0)%Z then "-" else "" in
      match round_to_double false (Z.abs m) e with
      | Dec Z0 _ => "0"
      | Dec ma ea =>
          let n := (Z.of_nat (String.length (Z_to_dec ma)) + ea)%Z in
          match shortest_digits 17 1 (Dec ma ea) ma ea n with
          | Some (s, k, n') => sign ++ render_number s k n'
          | None => sign ++ Z_to_dec ma
          end
      | Infinity _ => sign ++ "Infinity"
      | NaN => "NaN"
      end
  end.

(** A thrown error: a TypeError, with Node's error code when it has one. *)
Inductive js_error :=
| TypeError (code : option string).

(** ToString, [None] when it throws.  An object is converted by its
    [toString] method, [Object.prototype.toString] giving "[object Object]";
    an own property [toString] holds no function here (values carry none),
    so the conversion falls back to [valueOf], which gives the object back,
    and throws.  An array is joined with ",", [null] and [undefined]
    elements giving "". *)
Fixpoint js_ToString (v : jsval) : option string :=
  match v with
  | JUndefined => Some "undefined"
  | JNull => Some "null"
  | JBool true => Some "true"
  | JBool false => Some "false"
  | JNum n => Some (number_to_string n)
  | JStr s => Some s
  | JArr elems =>
      (fix join (first : bool) (l : list jsval) : option string :=
         match l with
         | [] => Some ""
         | x :: l' =>
             match match x with
                   | JUndefined | JNull => Some ""
                   | _ => js_ToString x
                   end with
             | None => None
             | Some sx =>
                 match join false l' with
                 | None => None
                 | Some r => Some ((if first then "" else ",") ++ sx ++ r)
                 end
             end
         end) true elems
  | JObj fields =>
      if existsb (fun kv => String.eqb (fst kv) "toString") fields then None
      else Some "[object Object]"
  end.

(** [file.k] for the keys read here ("originalname", "mimetype"): a
    TypeError on [undefined] and [null], the own property of an object, and
    [undefined] on the other values, whose prototypes have no such
    property. *)
Definition get_file_prop (file : jsval) (k : string) : option jsval :=
  match file with
  | JUndefined | JNull => None
  | JObj fields => Some (get_field k fields)
  | _ => Some JUndefined
  end.

(** How a call ends: it returns after making these callbacks, or throws. *)
Inductive js_completion :=
| Returned (calls : list cb_call)
| Threw (error : js_error).

(** [checkFileType(file, cb)] on any [file], in evaluation order:
    [file.originalname] (a TypeError on [null] or [undefined]), then
    [path.extname], whose [validateString] throws ERR_INVALID_ARG_TYPE on a
    non-string, then [filetypes.test], then [file.mimetype] and the ToString
    that [RegExp.prototype.test] applies to it, then the one call of [cb]
    ([cb] is taken to return). *)
Definition checkFileType_any (file : jsval) : js_completion :=
  match get_file_prop file "originalname" with
  | None => Threw (TypeError None)
  | Some (JStr name) =>
      let extname_ok := filetypes_test (toLowerCase (extname name)) in
      match get_file_prop file "mimetype" with
      | None => Threw (TypeError None)
      | Some mv =>
          match js_ToString mv with
          | None => Threw (TypeError None)
          | Some m =>
              let mimetype_ok := filetypes_test m in
              if mimetype_ok && extname_ok
              then Returned [mkCall JNull (JBool true)]
              else Returned [mkCall (JStr "Error: Images Only!") JUndefined]
          end
      end
  | Some _ => Threw (TypeError (Some "ERR_INVALID_ARG_TYPE"))
  end.

(** *** Invariant of the loop of [path.extname]

    With the characters at [k .. length p - 1] scanned: before the first
    character that is not a '/', nothing is recorded; afterwards [end] lies
    above [k], no '/' lies in [k .. end - 1], and a recorded [startDot] is
    the position of a '.' in that range. *)
Definition extname_inv (p : string) (k : nat) (st : ext_state) : Prop :=
  (endPos st = -1 /\ matchedSlash st = true /\ startDot st = -1)%Z \/
  (matchedSlash st = false /\
   (Z.of_nat k < endPos st <= Z.of_nat (String.length p))%Z /\
   (forall j, (Z.of_nat k <= Z.of_nat j < endPos st)%Z -> char_at p j <> "/"%char) /\
   (startDot st = (-1)%Z \/
    ((Z.of_nat k <= startDot st < endPos st)%Z /\
     char_at p (Z.to_nat (startDot st)) = "."%char))).

(** What the loop leaves for [extname] to cut out. *)
Definition extname_post (p : string) (st : ext_state) : Prop :=
  startDot st = (-1)%Z \/
  ((0 <= startDot st < endPos st)%Z /\ (endPos st <= Z.of_nat (String.length p))%Z /\
   char_at p (Z.to_nat (startDot st)) = "."%char /\
   (forall j, (startDot st <= Z.of_nat j < endPos st)%Z -> char_at p j <> "/"%char)).

Example extname_html : extname "index.html" = ".html". Proof. reflexivity. Qed.
Example extname_md : extname "index.coffee.md" = ".md". Proof. reflexivity. Qed.
Example extname_dot : extname "index." = ".". Proof. reflexivity. Qed.
Example extname_none : extname "index" = "". Proof. reflexivity. Qed.
Example extname_hidden : extname ".index" = "". Proof. reflexivity. Qed.
Example extname_hidden_md : extname ".index.md" = ".md". Proof. reflexivity. Qed.
Example extname_dir : extname "a.b/c" = "". Proof. reflexivity. Qed.
Example extname_trailing : extname "a/c.txt/" = ".txt". Proof. reflexivity. Qed.
Example extname_dotdot : extname ".." = "". Proof. reflexivity. Qed.
Example check_png : checkFileType (mkFile "Cat.PNG" "image/png") = [mkCall JNull (JBool true)].
Proof. reflexivity. Qed.
Example num_ws : StringToNumber "  42 " = Dec 42 0. Proof. reflexivity. Qed.
Example num_frac : StringToNumber "-1.5e2" = Dec (-150) 0. Proof. reflexivity. Qed.
Example num_hex : StringToNumber "0x1F" = Dec 31 0. Proof. reflexivity. Qed.
Example num_dot : StringToNumber "." = NaN. Proof. reflexivity. Qed.
Example num_trail : StringToNumber "1." = Dec 1 0. Proof. reflexivity. Qed.
Example num_lead : StringToNumber ".5" = Dec 5 (-1). Proof. reflexivity. Qed.
Example num_inf : StringToNumber "-Infinity" = Infinity true. Proof. reflexivity. Qed.
Example num_bad : StringToNumber "3000abc" = NaN. Proof. reflexivity. Qed.
Example num_signhex : StringToNumber "-0x10" = NaN. Proof. reflexivity. Qed.
Example num_e : StringToNumber "1e" = NaN. Proof. reflexivity. Qed.
Example num_tiny : StringToNumber "1e-324" = Dec 0 0. Proof. vm_compute. reflexivity. Qed.
Example num_tiny2 : StringToNumber "1e-400" = Dec 0 0. Proof. vm_compute. reflexivity. Qed.
Example num_min_sub : num_truthy (StringToNumber "5e-324") = true. Proof. vm_compute. reflexivity. Qed.
Example num_half_min_sub : StringToNumber "2.4703282292062327e-324" = Dec 0 0 /\
  num_truthy (StringToNumber "2.4703282292062328e-324") = true.
Proof. vm_compute. split; reflexivity. Qed.
Example num_huge : StringToNumber "1e400" = Infinity false. Proof. vm_compute. reflexivity. Qed.
Example num_max : num_truthy (StringToNumber "1.7976931348623157e308") = true /\
  StringToNumber "1.7976931348623159e308" = Infinity false.
Proof. vm_compute. split; reflexivity. Qed.
Example num_2p53 : StringToNumber "9007199254740993" = Dec 9007199254740992 0. Proof. vm_compute. reflexivity. Qed.
Example num_tenth : StringToNumber "0.1" =
  Dec 1000000000000000055511151231257827021181583404541015625 (-55).
Proof. vm_compute. reflexivity. Qed.
Example num_half : StringToNumber "0.5" = Dec 5 (-1). Proof. vm_compute. reflexivity. Qed.
Example tostring_tenth : number_to_string (StringToNumber "0.1") = "0.1".
Proof. vm_compute. reflexivity. Qed.
Example tostring_int : number_to_string (Dec 3000 0) = "3000". Proof. vm_compute. reflexivity. Qed.
Example tostring_neg : number_to_string (Dec (-15) (-1)) = "-1.5". Proof. vm_compute. reflexivity. Qed.
Example tostring_big : number_to_string (Dec 1 21) = "1e+21". Proof. vm_compute. reflexivity. Qed.
Example tostring_21 : number_to_string (Dec 123 18) = "123000000000000000000".
Proof. vm_compute. reflexivity. Qed.
Example tostring_small : number_to_string (Dec 1 (-7)) = "1e-7". Proof. vm_compute. reflexivity. Qed.
Example tostring_micro : number_to_string (Dec 15 (-7)) = "0.0000015". Proof. vm_compute. reflexivity. Qed.
Example tostring_min : number_to_string (StringToNumber "5e-324") = "5e-324".
Proof. vm_compute. reflexivity. Qed.
Example tostring_max : number_to_string (StringToNumber "1.7976931348623157e308") =
  "1.7976931348623157e+308".
Proof. vm_compute. reflexivity. Qed.
Example tostring_third : number_to_string (StringToNumber "0.3333333333333333333") =
  "0.3333333333333333".
Proof. vm_compute. reflexivity. Qed.
Example tostring_2p53 : number_to_string (StringToNumber "9007199254740993") =
  "9007199254740992".
Proof. vm_compute. reflexivity. Qed.
Example tostring_arr : js_ToString (JArr [JStr "image"; JNull; JNum (Dec 5 (-1))]) =
  Some "image,,0.5".
Proof. vm_compute. reflexivity. Qed.
Example tostring_obj : js_ToString (JObj [("a", JNull)]) = Some "[object Object]".
Proof. reflexivity. Qed.
Example check_any_array : checkFileType_any
  (JObj [("originalname", JStr "a.gif"); ("mimetype", JArr [JStr "image/gif"])])
  = Returned [mkCall JNull (JBool true)].
Proof. vm_compute. reflexivity. Qed.
Example port_3000 : port (mkEnv (Some "3000") None None) = Dec 3000 0. Proof. reflexivity. Qed.
Example key_example : s3_key (mkFile "Cat.PNG" "image/png") "0.4fzyo82mvyr" "0.abc" = "saskengallery/4fzyo82mvyrabc.PNG".
Proof. reflexivity. Qed.

(** ** General lemmas *)

Lemma str_length_app : forall s1 s2 : string,
  String.length (s1 ++ s2) = String.length s1 + String.length s2.
Proof. induction s1 as [|c s1 IH]; intros s2; simpl; [reflexivity | now rewrite IH]. Qed.

Lemma str_app_assoc : forall s1 s2 s3 : string,
  (s1 ++ s2) ++ s3 = s1 ++ s2 ++ s3.
Proof. induction s1 as [|c s1 IH]; intros s2 s3; simpl; [reflexivity | now rewrite IH]. Qed.

Lemma substring_length_le : forall (n m : nat) (s : string),
  String.length (String.substring n m s) <= m.
Proof.
  induction n as [|n IH]; intros m s.
  - revert m. induction s as [|c s IHs]; intros m; destruct m; simpl; try lia.
    specialize (IHs m). lia.
  - destruct s as [|c s]; simpl; [destruct m; simpl; lia | apply IH].
Qed.

Lemma random_fragment_length : forall d : string,
  String.length (random_fragment d) <= 13.
Proof.
  intros d. unfold random_fragment, js_substring.
  eapply Nat.le_trans; [apply substring_length_le | lia].
Qed.

Lemma get_field_absent : forall k fields,
  (forall v, ~ In (k, v) fields) -> get_field k fields = JUndefined.
Proof.
  intros k fields Hnot.
  induction fields as [|[k' v] fs IH]; cbn [get_field]; [reflexivity |].
  destruct (String.eqb_spec k k') as [<-|_].
  - exfalso. apply (Hnot v). now left.
  - apply IH. intros v' Hin. apply (Hnot v'). now right.
Qed.

(** The filter's rejection stops the upload before any storage write. *)
Lemma upload_rejected_no_write : forall e f d1 d2 put,
  checkFileType f = [mkCall (JStr "Error: Images Only!") JUndefined] ->
  upload e (Some f) d1 d2 put = ([], Some (JStr "Error: Images Only!", None)).
Proof. intros e f d1 d2 put H. unfold upload. rewrite H. reflexivity. Qed.

(** What [checkFileType] does is decided by the two regular-expression tests. *)
Lemma checkFileType_cases : forall f,
  (checkFileType f = [mkCall JNull (JBool true)] /\
   filetypes_test (toLowerCase (extname (originalname f))) = true /\
   filetypes_test (mimetype f) = true) \/
  (checkFileType f = [mkCall (JStr "Error: Images Only!") JUndefined] /\
   (filetypes_test (toLowerCase (extname (originalname f))) = false \/
    filetypes_test (mimetype f) = false)).
Proof.
  intros f. unfold checkFileType.
  destruct (filetypes_test (mimetype f)), (filetypes_test (toLowerCase (extname (originalname f))));
    simpl; auto.
Qed.

(** ** Claims *)

(** C1 (code defect): the filter is meant to let through only files with an
    extension jpg, jpeg, png or gif and an image MIME type of that set, but
    its regular expression has no anchors, so it only asks for one of the
    four words somewhere in the text.  A file named "photo.jpgx" declared as
    "text/png" is accepted by [checkFileType] and written to the bucket. *)
Theorem C1_checkFileType_accepts_unlisted_type :
  let f := mkFile "photo.jpgx" "text/png" in
  let e := mkEnv None (Some "bucket") (Some "https://bucket.example") in
  extname (originalname f) = ".jpgx" /\
  checkFileType f = [mkCall JNull (JBool true)] /\
  fst (post_upload e (Some f) "0.i" "0.i" (fun _ => PutOk))
    = [mkPut "bucket" "saskengallery/ii.jpgx" "public-read"].
Proof. vm_compute. repeat split; reflexivity. Qed.

(** C2 (counterexample): with the draws 0.5 and 0.5, whose base-36
    renderings are "0.i", the key is "saskengallery/ii.png": its token has
    two characters, so the key has no decomposition as
    saskengallery/<token>.<extension> with a token of 20 to 34 characters. *)
Lemma C2_short_token_counterexample :
  let e := mkEnv None (Some "bucket") (Some "https://bucket.example") in
  let f := mkFile "cat.png" "image/png" in
  post_upload e (Some f) "0.i" "0.i" (fun _ => PutOk) =
    ([mkPut "bucket" "saskengallery/ii.png" "public-read"],
     Some (res_json (JObj [("response", JStr "Image Uploaded Successfully!");
                           ("fileUrl", JStr "https://bucket.example/saskengallery/ii.png")]))) /\
  ~ (exists token ext : string,
       "saskengallery/ii.png" = "saskengallery/" ++ token ++ "." ++ ext /\
       20 <= String.length token <= 34).
Proof.
  split; [reflexivity |].
  intros (token & ext & Heq & Hlen).
  apply (f_equal String.length) in Heq.
  rewrite !str_length_app in Heq. simpl in Heq. lia.
Qed.

(** C2 (amended): a successful upload answers with fileUrl equal to the
    AWS_BUCKET_PATH text (the text "undefined" when it is unset), "/", and
    the key the file was written at; that key is "saskengallery/", the two
    random fragments and the file name's extension as [path.extname] returns
    it (case kept); the token of the two fragments has at most 26 characters. *)
Theorem C2_upload_success_url : forall e f d1 d2 put writes url,
  post_upload e (Some f) d1 d2 put =
    (writes, Some (res_json (JObj [("response", JStr "Image Uploaded Successfully!");
                                   ("fileUrl", JStr url)]))) ->
  writes = [mkPut (env_str (AWS_BUCKET_NAME e)) (s3_key f d1 d2) "public-read"] /\
  url = env_str (AWS_BUCKET_PATH e) ++ "/" ++ s3_key f d1 d2 /\
  s3_key f d1 d2 =
    "saskengallery/" ++ (random_fragment d1 ++ random_fragment d2) ++ extname (originalname f) /\
  String.length (random_fragment d1 ++ random_fragment d2) <= 26.
Proof.
  intros e f d1 d2 put writes url H.
  unfold post_upload, upload, checkFileType in H.
  destruct (filetypes_test (mimetype f) && filetypes_test (toLowerCase (extname (originalname f))));
    simpl in H.
  - destruct (put _) as [|err] eqn:Hp; simpl in H.
    + inversion H; subst; clear H.
      split; [reflexivity |]. split; [reflexivity |].
      split; [unfold s3_key, getRandomFileName; now rewrite str_app_assoc |].
      rewrite str_length_app.
      pose proof (random_fragment_length d1). pose proof (random_fragment_length d2). lia.
    + unfold upload_callback in H. destruct (js_truthy (with_storage_errors err)); discriminate.
  - discriminate.
Qed.

Lemma C2_upload_success_url_witness :
  post_upload (mkEnv None (Some "bucket") (Some "https://bucket.example"))
    (Some (mkFile "Cat.PNG" "image/png")) "0.4fzyo82mvyrk9" "0.i" (fun _ => PutOk) =
    ([mkPut "bucket" "saskengallery/4fzyo82mvyrk9i.PNG" "public-read"],
     Some (res_json (JObj [("response", JStr "Image Uploaded Successfully!");
        ("fileUrl", JStr "https://bucket.example/saskengallery/4fzyo82mvyrk9i.PNG")]))) /\
  "https://bucket.example/saskengallery/4fzyo82mvyrk9i.PNG" =
    "https://bucket.example" ++ "/" ++ s3_key (mkFile "Cat.PNG" "image/png") "0.4fzyo82mvyrk9" "0.i".
Proof.
  split; [reflexivity |].
  eapply (C2_upload_success_url (mkEnv None (Some "bucket") (Some "https://bucket.example"))
            (mkFile "Cat.PNG" "image/png") "0.4fzyo82mvyrk9" "0.i" (fun _ => PutOk)).
  reflexivity.
Defined.

(** C3: when the upload stage reports no error and leaves [req.file]
    undefined, the handler answers with status 200 and the body
    { error: "No File Selected" }; a request with no file makes no write
    and gets that answer. *)
Theorem C3_no_file_selected : forall e err,
  js_truthy err = false ->
  upload_callback e err None = mkResponse 200 (JObj [("error", JStr "No File Selected")]) /\
  (forall d1 d2 put,
     post_upload e None d1 d2 put =
       ([], Some (mkResponse 200 (JObj [("error", JStr "No File Selected")])))).
Proof.
  intros e err Herr. unfold upload_callback. rewrite Herr.
  split; reflexivity.
Qed.

Lemma C3_no_file_selected_witness :
  upload_callback (mkEnv None None None) JUndefined None
    = mkResponse 200 (JObj [("error", JStr "No File Selected")]).
Proof.
  apply (proj1 (C3_no_file_selected (mkEnv None None None) JUndefined eq_refl)).
Defined.

(** C4: the delete route makes exactly one delete-object call; when it
    succeeds the answer is 200 with { message: "File deleted successfully" },
    and when it fails, whatever the error, the answer is 500 with the fixed
    body { error: "Failed to delete file from S3" }. *)
Theorem C4_delete_responses : forall e b send,
  let params := mkDeleteParams (env_str (AWS_BUCKET_NAME e)) (body_key b) in
  (forall out, send params = SendOk out ->
     delete_handler e b send =
       ([params], mkResponse 200 (JObj [("message", JStr "File deleted successfully")]))) /\
  (forall err, send params = SendErr err ->
     delete_handler e b send =
       ([params], mkResponse 500 (JObj [("error", JStr "Failed to delete file from S3")]))).
Proof.
  intros e b send params. unfold delete_handler. fold params.
  split; intros x Hx; rewrite Hx; reflexivity.
Qed.

Lemma C4_delete_responses_witness :
  delete_handler (mkEnv None (Some "bucket") None)
    (BodyObject [("key", JStr "saskengallery/gone.jpg")])
    (fun _ => SendErr (JObj [("name", JStr "AccessDenied")]))
  = ([mkDeleteParams "bucket" (JStr "saskengallery/gone.jpg")],
     mkResponse 500 (JObj [("error", JStr "Failed to delete file from S3")])).
Proof.
  apply (proj2 (C4_delete_responses (mkEnv None (Some "bucket") None)
                  (BodyObject [("key", JStr "saskengallery/gone.jpg")])
                  (fun _ => SendErr (JObj [("name", JStr "AccessDenied")])))
           (JObj [("name", JStr "AccessDenied")])).
  reflexivity.
Defined.

(** C5: whatever error the upload stage reports (a truthy value passed to
    [next]) is sent back unchanged as the [error] field of the body. *)
Theorem C5_upload_error_verbatim : forall e file d1 d2 put writes err reqfile,
  upload e file d1 d2 put = (writes, Some (err, reqfile)) ->
  js_truthy err = true ->
  post_upload e file d1 d2 put = (writes, Some (res_json (JObj [("error", err)]))).
Proof.
  intros e file d1 d2 put writes err reqfile Hup Herr.
  unfold post_upload. rewrite Hup. unfold upload_callback. rewrite Herr. reflexivity.
Qed.

Lemma C5_upload_error_verbatim_witness :
  let e := mkEnv None (Some "bucket") None in
  let f := mkFile "cat.png" "image/png" in
  let err := JObj [("name", JStr "S3ServiceException"); ("Code", JStr "NoSuchBucket")] in
  let err' := JObj [("name", JStr "S3ServiceException"); ("Code", JStr "NoSuchBucket");
                    ("storageErrors", JArr [])] in
  upload e (Some f) "0.i" "0.i" (fun _ => PutErr err)
    = ([mkPut "bucket" "saskengallery/ii.png" "public-read"], Some (err', None)) /\
  post_upload e (Some f) "0.i" "0.i" (fun _ => PutErr err)
    = ([mkPut "bucket" "saskengallery/ii.png" "public-read"],
       Some (res_json (JObj [("error", err')]))).
Proof.
  split; [reflexivity |].
  eapply C5_upload_error_verbatim; reflexivity.
Defined.

(** C6: the delete route checks nothing about [key]: for every request
    body, the one delete-object call names the bucket AWS_BUCKET_NAME and,
    as [Key], exactly the value of the body's [key] field for an object
    body, and [undefined] when there is no such field (an object without
    [key], or an array body). *)
Theorem C6_delete_key_unchecked : forall e b send,
  (forall fields, b = BodyObject fields ->
     fst (delete_handler e b send) =
       [mkDeleteParams (env_str (AWS_BUCKET_NAME e)) (get_field "key" fields)]) /\
  ((forall fields v, b = BodyObject fields -> ~ In ("key", v) fields) ->
   fst (delete_handler e b send) =
     [mkDeleteParams (env_str (AWS_BUCKET_NAME e)) JUndefined]).
Proof.
  intros e b send. split.
  - intros fields ->. reflexivity.
  - intros Hnot. destruct b as [fields | elems]; cbn [fst delete_handler body_key].
    + rewrite get_field_absent; [reflexivity |].
      intros v. apply (Hnot fields v eq_refl).
    + reflexivity.
Qed.

Lemma C6_delete_key_unchecked_witness :
  fst (delete_handler (mkEnv None (Some "bucket") None) (BodyObject [("name", JStr "x")])
         (fun _ => SendOk JNull))
  = [mkDeleteParams "bucket" JUndefined] /\
  fst (delete_handler (mkEnv None (Some "bucket") None) (BodyObject [("key", JStr "")])
         (fun _ => SendOk JNull))
  = [mkDeleteParams "bucket" (JStr "")] /\
  fst (delete_handler (mkEnv None (Some "bucket") None) (BodyArray [JStr "key"])
         (fun _ => SendOk JNull))
  = [mkDeleteParams "bucket" JUndefined].
Proof.
  split; [| split].
  - apply (proj2 (C6_delete_key_unchecked (mkEnv None (Some "bucket") None)
                    (BodyObject [("name", JStr "x")]) (fun _ => SendOk JNull))).
    intros fields v Hb. injection Hb as <-. intros [H | []]. discriminate.
  - apply (proj1 (C6_delete_key_unchecked (mkEnv None (Some "bucket") None)
                    (BodyObject [("key", JStr "")]) (fun _ => SendOk JNull))
             [("key", JStr "")]).
    reflexivity.
  - apply (proj2 (C6_delete_key_unchecked (mkEnv None (Some "bucket") None)
                    (BodyArray [JStr "key"]) (fun _ => SendOk JNull))).
    intros fields v Hb. discriminate.
Defined.

(** C8 (counterexample): with the draws 0.5 and 0.5 (renderings "0.i"),
    the token is "ii", two characters long, and two uploads that draw these
    values get the same key. *)
Lemma C8_same_key_counterexample :
  let f := mkFile "cat.png" "image/png" in
  let e := mkEnv None (Some "bucket") (Some "https://bucket.example") in
  String.length (random_fragment "0.i" ++ random_fragment "0.i") = 2 /\
  fst (post_upload e (Some f) "0.i" "0.i" (fun _ => PutOk)) =
    [mkPut "bucket" "saskengallery/ii.png" "public-read"] /\
  fst (post_upload e (Some (mkFile "other.png" "image/png")) "0.i" "0.i" (fun _ => PutOk)) =
    [mkPut "bucket" "saskengallery/ii.png" "public-read"].
Proof. vm_compute. repeat split; reflexivity. Qed.

(** C8 (amended): the key is "saskengallery/", then the concatenation of
    two fragments, characters 2 to 14 of the two base-36 renderings of
    [Math.random()], at most 13 characters each, then the extension; the key
    is determined by the two draws and the file name, so distinct keys rest
    on the draws alone. *)
Theorem C8_key_from_two_fragments : forall f d1 d2,
  s3_key f d1 d2 =
    "saskengallery/" ++ (js_substring d1 2 15 ++ js_substring d2 2 15) ++ extname (originalname f) /\
  String.length (js_substring d1 2 15) <= 13 /\
  String.length (js_substring d2 2 15) <= 13 /\
  (forall f', originalname f' = originalname f -> s3_key f' d1 d2 = s3_key f d1 d2).
Proof.
  intros f d1 d2. split; [| split; [| split]].
  - unfold s3_key, getRandomFileName, random_fragment. now rewrite str_app_assoc.
  - apply random_fragment_length.
  - apply random_fragment_length.
  - intros f' Hf'. unfold s3_key, getRandomFileName. now rewrite Hf'.
Qed.






(** ** Further properties of the code *)

(** *** Characters of strings *)

Lemma contains_char_false : forall (c : ascii) (s : string),
  contains (String c "") s = false <->
  (forall j, j < String.length s -> char_at s j <> c).
Proof.
  intros c s. induction s as [|c' s IH]; simpl.
  - split; [intros _ j Hj; lia | reflexivity].
  - destruct (ascii_dec c c') as [<-|Hne]; simpl.
    + replace (String.prefix "" s) with true by (destruct s; reflexivity). simpl.
      split; [intros Hf; discriminate Hf |]. intros H. exfalso. apply (H 0); [lia | reflexivity].
    + rewrite IH. split.
      * intros H [|j] Hj; simpl; [congruence | apply H; lia].
      * intros H j Hj. apply (H (S j)). lia.
Qed.

Lemma contains_char_app : forall (c : ascii) (s1 s2 : string),
  contains (String c "") (s1 ++ s2) =
  contains (String c "") s1 || contains (String c "") s2.
Proof.
  intros c s1 s2. induction s1 as [|c' s1 IH]; simpl; [reflexivity |].
  rewrite IH. destruct (ascii_dec c c'); simpl; [| reflexivity].
  replace (String.prefix "" s1) with true by (destruct s1; reflexivity).
  replace (String.prefix "" (s1 ++ s2)) with true by (destruct (s1 ++ s2); reflexivity).
  reflexivity.
Qed.

Lemma substring_length : forall n m s,
  n + m <= String.length s -> String.length (String.substring n m s) = m.
Proof.
  induction n as [|n IH]; intros m s H.
  - revert m H. induction s as [|c s IHs]; intros [|m] H; simpl in *; try lia.
    rewrite IHs; lia.
  - destruct s as [|c s]; simpl in *; [lia | apply IH; lia].
Qed.

Lemma substring_char_at : forall n m s j,
  n + m <= String.length s -> j < m ->
  char_at (String.substring n m s) j = char_at s (n + j).
Proof.
  induction n as [|n IH]; intros m s j H Hj.
  - revert m j H Hj. induction s as [|c s IHs]; intros [|m] j H Hj; simpl in *; try lia.
    destruct j as [|j]; [reflexivity | apply IHs; lia].
  - destruct s as [|c s]; simpl in *; [lia | apply IH; lia].
Qed.

Lemma substring_no_char : forall (c : ascii) n m s,
  contains (String c "") s = false -> contains (String c "") (String.substring n m s) = false.
Proof.
  intros c n m s Hs. apply contains_char_false. intros j Hj.
  rewrite contains_char_false in Hs.
  revert m s j Hs Hj. induction n as [|n IH]; intros m s j Hs Hj.
  - revert m j Hs Hj. induction s as [|c' s IHs]; intros [|m] j Hs Hj; simpl in *; try lia.
    destruct j as [|j].
    + apply (Hs 0). lia.
    + apply IHs with (m := m); [intros j' Hj'; apply (Hs (S j')); lia | lia].
  - destruct s as [|c' s]; simpl in *; [lia |].
    apply IH with (m := m) (s := s); [intros j' Hj'; apply (Hs (S j')); lia | exact Hj].
Qed.

Lemma extname_loop_post : forall p k st,
  k <= String.length p -> extname_inv p k st -> extname_post p (extname_loop p k st).
Proof.
  intros p k. induction k as [|i IH]; intros st Hk Hinv.
  - cbn [extname_loop].
    destruct Hinv as [(_ & _ & Hsd) | (_ & Hend & Hns & [Hsd | (Hsd & Hdot)])];
      [left; exact Hsd | left; exact Hsd |].
    right. split; [lia |]. split; [lia |]. split; [exact Hdot |].
    intros j Hj. apply Hns. lia.
  - cbn [extname_loop].
    destruct (Ascii.eqb_spec (char_at p i) "/"%char) as [Hsl | Hsl].
    + destruct (matchedSlash st) eqn:Hm; simpl.
      * apply IH; [lia |].
        destruct Hinv as [H | (Hm' & _)]; [left; exact H | congruence].
      * destruct Hinv as [(_ & Hm' & _) | (_ & Hend & Hns & [Hsd | (Hsd & Hdot)])];
          [congruence | left; exact Hsd |].
        right; simpl. split; [lia |]. split; [lia |]. split; [exact Hdot |].
        intros j Hj. apply Hns. lia.
    + apply IH; [lia |].
      (* after the update of [end] *)
      set (st1 := if Z.eqb (endPos st) (-1)%Z
                  then mkExtState (startDot st) (startPart st) (Z.of_nat i + 1)%Z
                         false (preDotState st)
                  else st).
      assert (Hst1 : matchedSlash st1 = false /\
                     (Z.of_nat i < endPos st1 <= Z.of_nat (String.length p))%Z /\
                     (forall j, (Z.of_nat i <= Z.of_nat j < endPos st1)%Z ->
                                char_at p j <> "/"%char) /\
                     (startDot st1 = (-1)%Z \/
                      ((Z.of_nat i <= startDot st1 < endPos st1)%Z /\
                       char_at p (Z.to_nat (startDot st1)) = "."%char))).
      { subst st1.
        destruct Hinv as [(He & Hm & Hsd) | (Hm & Hend & Hns & Hsd)].
        - rewrite He. simpl. split; [reflexivity |]. split; [lia |]. split; [| left; exact Hsd].
          intros j Hj. assert (j = i) by lia. subst j. exact Hsl.
        - destruct (Z.eqb_spec (endPos st) (-1)%Z) as [He | _]; [lia |].
          split; [exact Hm |]. split; [lia |]. split.
          + intros j Hj. destruct (Nat.eq_dec j i) as [-> | Hji]; [exact Hsl |].
            apply Hns. lia.
          + destruct Hsd as [Hsd | (Hsd & Hdot)]; [left; exact Hsd | right; split; [lia | exact Hdot]]. }
      clearbody st1. destruct Hst1 as (Hm & Hend & Hns & Hsd).
      right.
      destruct (Ascii.eqb_spec (char_at p i) "."%char) as [Hd | Hd].
      * destruct (Z.eqb_spec (startDot st1) (-1)%Z) as [Hs1 | Hs1].
        -- simpl. split; [exact Hm |]. split; [exact Hend |]. split; [exact Hns |].
           right. split; [lia |]. rewrite Nat2Z.id. exact Hd.
        -- destruct (negb (Z.eqb (preDotState st1) 1%Z)); simpl;
             (split; [exact Hm |]; split; [exact Hend |]; split; [exact Hns | exact Hsd]).
      * destruct (negb (Z.eqb (startDot st1) (-1)%Z)); simpl;
          (split; [exact Hm |]; split; [exact Hend |]; split; [exact Hns | exact Hsd]).
Qed.

Lemma extname_post_of : forall p,
  extname_post p (extname_loop p (String.length p) ext_init).
Proof.
  intros p. apply extname_loop_post; [lia |]. left. simpl. auto.
Qed.

Lemma substring_dot_no_slash : forall p n m,
  0 < m -> n + m <= String.length p -> char_at p n = "."%char ->
  (forall j, n <= j < n + m -> char_at p j <> "/"%char) ->
  (exists rest, String.substring n m p = String "." rest) /\
  contains "/" (String.substring n m p) = false.
Proof.
  intros p n m Hm Hlen Hdot Hns. split.
  - destruct (String.substring n m p) as [|c rest] eqn:Hs.
    + pose proof (substring_length n m p Hlen) as Hl. rewrite Hs in Hl. simpl in Hl. lia.
    + exists rest. pose proof (substring_char_at n m p 0 Hlen Hm) as Hc.
      rewrite Hs in Hc. simpl in Hc. rewrite Nat.add_0_r, Hdot in Hc. now rewrite Hc.
  - apply contains_char_false. intros j Hj.
    rewrite substring_length in Hj by exact Hlen.
    rewrite substring_char_at by assumption. apply Hns. lia.
Qed.

Lemma extname_no_dot : forall p,
  contains "." p = false -> extname p = "".
Proof.
  intros p Hp. pose proof (extname_post_of p) as Hpost. unfold extname.
  destruct Hpost as [Hsd | (Hsd & Hend & Hdot & _)].
  - rewrite Hsd. reflexivity.
  - exfalso. rewrite contains_char_false in Hp.
    apply (Hp (Z.to_nat (startDot (extname_loop p (String.length p) ext_init)))); [lia | exact Hdot].
Qed.

(** X: [path.extname] returns either the empty string or a '.' followed by
    text with no '/' in it. *)
Theorem extname_empty_or_dot_no_slash : forall p,
  extname p = "" \/
  ((exists rest, extname p = String "." rest) /\ contains "/" (extname p) = false).
Proof.
  intros p. pose proof (extname_post_of p) as Hpost. unfold extname.
  set (st := extname_loop p (String.length p) ext_init) in *.
  destruct Hpost as [Hsd | ((Hsd & Hsd') & Hend & Hdot & Hns)].
  - left. rewrite Hsd. reflexivity.
  - destruct (_ || _ || _ || _); [left; reflexivity | right].
    replace (js_substring p (Z.to_nat (startDot st)) (Z.to_nat (endPos st)))
      with (String.substring (Z.to_nat (startDot st))
              (Z.to_nat (endPos st) - Z.to_nat (startDot st)) p)
      by (unfold js_substring; f_equal; lia).
    apply substring_dot_no_slash; [lia | lia | exact Hdot |].
    intros j Hj. apply Hns. lia.
Qed.

(** X: a file whose name has no '.' is rejected by the filter, whatever its
    MIME type, and the upload stage writes nothing for it. *)
Theorem checkFileType_rejects_name_without_dot : forall f,
  contains "." (originalname f) = false ->
  checkFileType f = [mkCall (JStr "Error: Images Only!") JUndefined] /\
  (forall e d1 d2 put,
     post_upload e (Some f) d1 d2 put =
       ([], Some (res_json (JObj [("error", JStr "Error: Images Only!")])))).
Proof.
  intros f Hf.
  assert (Hc : checkFileType f = [mkCall (JStr "Error: Images Only!") JUndefined]).
  { unfold checkFileType. rewrite (extname_no_dot _ Hf). simpl.
    now rewrite andb_false_r. }
  split; [exact Hc |].
  intros e d1 d2 put. unfold post_upload, upload. rewrite Hc. reflexivity.
Qed.

Lemma checkFileType_rejects_name_without_dot_witness :
  checkFileType (mkFile "photo_png" "image/png")
    = [mkCall (JStr "Error: Images Only!") JUndefined].
Proof.
  apply (proj1 (checkFileType_rejects_name_without_dot (mkFile "photo_png" "image/png")
                  eq_refl)).
Defined.

(** X: when the two random renderings hold no '/', the storage key is
    "saskengallery/" followed by a single path segment: whatever directories
    the client's file name names, the key adds no further '/'. *)
Theorem s3_key_single_segment : forall f d1 d2,
  contains "/" d1 = false -> contains "/" d2 = false ->
  exists rest, s3_key f d1 d2 = "saskengallery/" ++ rest /\ contains "/" rest = false.
Proof.
  intros f d1 d2 H1 H2. exists (getRandomFileName f d1 d2). split; [reflexivity |].
  unfold getRandomFileName, random_fragment, js_substring.
  rewrite !contains_char_app, !substring_no_char by assumption. simpl.
  destruct (extname_empty_or_dot_no_slash (originalname f)) as [-> | (_ & H)];
    [reflexivity | exact H].
Qed.

Lemma s3_key_single_segment_witness :
  s3_key (mkFile "../../etc/cron.d/job.png" "image/png") "0.4fzyo82mvyrk9" "0.i"
    = "saskengallery/" ++ "4fzyo82mvyrk9i.png" /\
  exists rest,
    s3_key (mkFile "../../etc/cron.d/job.png" "image/png") "0.4fzyo82mvyrk9" "0.i"
      = "saskengallery/" ++ rest /\ contains "/" rest = false.
Proof.
  split; [reflexivity |].
  apply s3_key_single_segment; reflexivity.
Defined.

(** *** The upload route as a whole *)

(** X: a file that fails either test gets the body
    { error: "Error: Images Only!" } and nothing is written. *)
Theorem post_upload_rejected : forall e f d1 d2 put,
  filetypes_test (toLowerCase (extname (originalname f))) = false \/
  filetypes_test (mimetype f) = false ->
  post_upload e (Some f) d1 d2 put =
    ([], Some (res_json (JObj [("error", JStr "Error: Images Only!")]))).
Proof.
  intros e f d1 d2 put Hfail. unfold post_upload, upload, checkFileType.
  destruct Hfail as [H | H]; rewrite H; [rewrite andb_false_r | ]; reflexivity.
Qed.

Lemma post_upload_rejected_witness :
  post_upload (mkEnv None (Some "bucket") None) (Some (mkFile "photo.jpg" "text/plain"))
    "0.i" "0.i" (fun _ => PutOk)
  = ([], Some (res_json (JObj [("error", JStr "Error: Images Only!")]))).
Proof. apply post_upload_rejected. right. reflexivity. Defined.

(** *** The random fragments *)

Lemma substring0_min : forall m s,
  String.substring 0 (Nat.min m (String.length s)) s = String.substring 0 m s.
Proof.
  induction m as [|m IH]; intros [|c s]; simpl; try reflexivity.
  now rewrite IH.
Qed.

(** X: on a rendering "0." followed by base-36 digits, the fragment is the
    first 13 digits, or all of them when there are fewer; so two renderings
    with at least 13 digits each give a token of exactly 26 characters. *)
Theorem random_fragment_digits : forall ds,
  random_fragment (String "0" (String "." ds)) = String.substring 0 13 ds /\
  String.length (random_fragment (String "0" (String "." ds))) =
    Nat.min 13 (String.length ds).
Proof.
  intros ds.
  assert (Hf : random_fragment (String "0" (String "." ds)) =
               String.substring 0 (Nat.min 13 (String.length ds)) ds).
  { unfold random_fragment, js_substring. cbn [String.length].
    replace (Nat.min (Nat.min 2 (S (S (String.length ds))))
                     (Nat.min 15 (S (S (String.length ds))))) with 2 by lia.
    replace (Nat.max (Nat.min 2 (S (S (String.length ds))))
                     (Nat.min 15 (S (S (String.length ds)))) - 2)
      with (Nat.min 13 (String.length ds)) by lia.
    reflexivity. }
  split.
  - rewrite Hf. apply substring0_min.
  - rewrite Hf. apply substring_length. lia.
Qed.

(** *** The listening port *)

Lemma drop_ws_all : forall l, forallb is_ws l = true -> drop_ws l = [].
Proof.
  induction l as [|c l IH]; simpl; [reflexivity |].
  intros H. apply andb_prop in H as [Hc Hl]. rewrite Hc. apply IH, Hl.
Qed.

(** X: an APP_PORT made only of white space (tab, line breaks, space) is
    the number 0, so the port is 5000. *)
Theorem port_whitespace : forall e s,
  APP_PORT e = Some s -> forallb is_ws (list_ascii_of_string s) = true ->
  StringToNumber s = Dec 0 0 /\ port e = Dec 5000 0.
Proof.
  intros e s He Hws.
  assert (Hn : StringToNumber s = Dec 0 0).
  { unfold StringToNumber, trim. rewrite (drop_ws_all _ Hws). reflexivity. }
  split; [exact Hn |]. unfold port, Number_env. rewrite He, Hn. reflexivity.
Qed.

Lemma port_whitespace_witness :
  StringToNumber (String "009" (String "010" " ")) = Dec 0 0 /\
  port (mkEnv (Some (String "009" (String "010" " "))) None None) = Dec 5000 0.
Proof.
  apply (port_whitespace (mkEnv (Some (String "009" (String "010" " "))) None None)
           (String "009" (String "010" " "))); reflexivity.
Defined.

(** *** Letter case in file names *)

Lemma ascii_lower_eqb_slash : forall c,
  Ascii.eqb (ascii_lower c) "/"%char = Ascii.eqb c "/"%char.
Proof. intros [[|] [|] [|] [|] [|] [|] [|] [|]]; reflexivity. Qed.

Lemma ascii_lower_eqb_dot : forall c,
  Ascii.eqb (ascii_lower c) "."%char = Ascii.eqb c "."%char.
Proof. intros [[|] [|] [|] [|] [|] [|] [|] [|]]; reflexivity. Qed.

Lemma toLowerCase_length : forall s, String.length (toLowerCase s) = String.length s.
Proof. induction s as [|c s IH]; simpl; [reflexivity | now rewrite IH]. Qed.

Lemma char_at_toLowerCase : forall s i,
  char_at (toLowerCase s) i = ascii_lower (char_at s i).
Proof.
  induction s as [|c s IH]; intros [|i]; simpl; try reflexivity. apply IH.
Qed.

Lemma substring_toLowerCase : forall n m s,
  String.substring n m (toLowerCase s) = toLowerCase (String.substring n m s).
Proof.
  induction n as [|n IH]; intros m s.
  - revert m. induction s as [|c s IHs]; intros [|m]; simpl; try reflexivity.
    now rewrite IHs.
  - destruct s as [|c s]; simpl; [reflexivity | apply IH].
Qed.

Lemma extname_loop_toLowerCase : forall p k st,
  extname_loop (toLowerCase p) k st = extname_loop p k st.
Proof.
  intros p k. induction k as [|i IH]; intros st; [reflexivity |].
  cbn [extname_loop].
  rewrite char_at_toLowerCase, ascii_lower_eqb_slash, ascii_lower_eqb_dot.
  destruct (Ascii.eqb (char_at p i) "/"%char); [destruct (negb _) |]; auto.
Qed.

Lemma extname_toLowerCase : forall p,
  extname (toLowerCase p) = toLowerCase (extname p).
Proof.
  intros p. unfold extname.
  rewrite toLowerCase_length, extname_loop_toLowerCase.
  destruct (_ || _ || _ || _); [reflexivity |].
  unfold js_substring. rewrite toLowerCase_length. apply substring_toLowerCase.
Qed.

(** X: the filter's decision does not depend on the letter case of the file
    name: two names equal up to case ("PHOTO.JPG", "photo.jpg") get the same
    answer for the same MIME type. *)
Theorem checkFileType_name_case_insensitive : forall n1 n2 m,
  toLowerCase n1 = toLowerCase n2 ->
  checkFileType (mkFile n1 m) = checkFileType (mkFile n2 m).
Proof.
  intros n1 n2 m H. unfold checkFileType. cbn [originalname mimetype].
  rewrite <- !extname_toLowerCase, H. reflexivity.
Qed.

Lemma checkFileType_name_case_insensitive_witness :
  checkFileType (mkFile "PHOTO.JPG" "image/jpeg") = checkFileType (mkFile "photo.jpg" "image/jpeg").
Proof. apply checkFileType_name_case_insensitive. reflexivity. Defined.
